(** * transcribe_mp4.py: a shallow embedding and its specification

    The script [transcribe_mp4.py] validates its command line and the
    [OPENAI_API_KEY] credential, checks that the input exists and is at
    most 25 MiB, uploads it to the Whisper transcription endpoint, echoes
    the transcript and stores it in [<stem>_transcript.txt].

    The embedding runs the two functions of the script, [transcribe_mp4]
    and [main], in a small state-and-exception monad over a model of the
    process environment: the filesystem is a finite map from paths to
    nodes, standard output is the list of [print] calls, and every access
    to the environment, the filesystem or the network is logged in a trace
    so that ordering properties can be stated.

    Conventions.
    - A Python [str] is a Rocq [string] holding its UTF-8 bytes; writing a
      [str] to a file opened with [encoding='utf-8'] therefore stores the
      string itself.  ['/'] and ['.'] are ASCII, so splitting a path on
      them gives the same result on bytes and on code points.
    - File sizes and Python [int]s are [N]; the quotient
      [getsize / (1024 * 1024)] is a binary64 value, modelled by its
      mantissa and exponent with IEEE round-to-nearest-even written out.
    - Opening the output file can be refused and writing it can fail; both
      are given by the invocation ([open_fault], [write_fault]).  The
      disk is a map from path strings to files: two paths never name the
      same file (no hard or symbolic links), and the disk changes only
      through the script during a run. *)

From Stdlib Require Import NArith ZArith Lia Ascii DecimalString.
From stdpp Require Import gmap strings list fin_maps.

Local Open Scope N_scope.

(** ** Python strings *)

Module PyStr.

(** [c * n] for a one-character string [c]. *)
Fixpoint replicate_char (n : nat) (c : ascii) : string :=
  match n with
  | O => ""
  | S n' => String c (replicate_char n' c)
  end.

(** [str(n)] for a non-negative [int]. *)
Definition str_of_N (n : N) : string :=
  NilEmpty.string_of_uint (N.to_uint n).

(** Truthiness of a [str]: [bool(s)] is [len(s) != 0]. *)
Definition truthy (s : string) : bool :=
  match s with
  | "" => false
  | String _ _ => true
  end.

Fixpoint contains_char (c : ascii) (s : string) : bool :=
  match s with
  | "" => false
  | String a s' => if Ascii.eqb a c then true else contains_char c s'
  end.

(** [s.split(sep)] for a one-character separator: never empty. *)
Fixpoint split (sep : ascii) (s : string) : list string :=
  match s with
  | "" => [ "" ]
  | String a s' =>
      if Ascii.eqb a sep then "" :: split sep s'
      else match split sep s' with
           | [] => [ String a "" ]
           | h :: t => String a h :: t
           end
  end.

(** The cut of [s] at its last occurrence of [c]: [s.rfind(c)] is the
    length of the first component, and [None] stands for [-1]. *)
Fixpoint rcut (c : ascii) (s : string) : option (string * string) :=
  match s with
  | "" => None
  | String a s' =>
      match rcut c s' with
      | Some (l, r) => Some (String a l, r)
      | None => if Ascii.eqb a c then Some ("", s') else None
      end
  end.

(** [repr(s)], as [str(OSError)] prints a file name: quoted with ['],
    or with the double quote when [s] holds a ['] and no double quote;
    the quote in use and the backslash are escaped, tab, newline and
    carriage return are written with their letter, other control characters
    and DEL as [\xHH].  Bytes above 127 are copied, which is what Python
    does for printable characters outside ASCII. *)
Definition squote : ascii := "039"%char.
Definition dquote : ascii := "034"%char.
Definition backslash : ascii := "092"%char.

Definition hex_digit (n : N) : ascii :=
  match String.get (N.to_nat n) "0123456789abcdef" with
  | Some c => c
  | None => "0"%char
  end.

Definition repr_char (quote c : ascii) : string :=
  let n := N_of_ascii c in
  if Ascii.eqb c quote || Ascii.eqb c backslash then
    String backslash (String c "")
  else if n =? 9 then String backslash "t"
  else if n =? 10 then String backslash "n"
  else if n =? 13 then String backslash "r"
  else if (n <? 32) || (n =? 127) then
    String backslash
      (String "x" (String (hex_digit (n / 16)) (String (hex_digit (n mod 16)) "")))
  else String c "".

Fixpoint repr_body (quote : ascii) (s : string) : string :=
  match s with
  | "" => String quote ""
  | String c s' => repr_char quote c +:+ repr_body quote s'
  end.

Definition repr (s : string) : string :=
  let quote :=
    if contains_char squote s && negb (contains_char dquote s) then dquote
    else squote in
  String quote (repr_body quote s).

End PyStr.

(** ** pathlib: [PurePosixPath.name] and [PurePosixPath.stem] *)

Module Pathlib.
Import PyStr.

(** A component survives parsing when it is neither empty nor ["."]. *)
Definition keeps (part : string) : bool :=
  negb (String.eqb part "") && negb (String.eqb part ".").

Definition parts (path : string) : list string :=
  List.filter keeps (split "/"%char path).

(** The final component, or [''] when there is none. *)
Definition name (path : string) : string :=
  List.last (parts path) "".

(** [i = name.rfind('.')]; the stem is [name[:i]] when
    [0 < i < len(name) - 1] and the whole name otherwise. *)
Definition stem_of_name (nm : string) : string :=
  match rcut "."%char nm with
  | Some (l, r) => if truthy l && truthy r then l else nm
  | None => nm
  end.

Definition stem (path : string) : string := stem_of_name (name path).

End Pathlib.

(** ** binary64 arithmetic used by the size check *)

Module Float.

(** A finite non-negative binary64 value [mant * 2 ^ expo]. *)
Record t := mk { mant : N; expo : Z }.

Definition precision : N := 53.

(** [n / 2 ** k] on Python [int]s (true division): the quotient rounded
    to the nearest binary64 value, ties to even.  Below [2 ^ 53] the
    integer is a mantissa already and the division only lowers the
    exponent; above, the low [d] bits are rounded away first.
    [truediv n d] is [n / d] for a divisor [d] that is a power of two,
    the only kind the script divides by. *)
Definition truediv_pow2 (n : N) (k : N) : t :=
  if n <? 2 ^ precision then mk n (- Z.of_N k)
  else
    let d := N.log2 n - 52 in
    let q := N.shiftr n d in
    let r := n mod 2 ^ d in
    let half := 2 ^ (d - 1) in
    let q' := if (half <? r) || ((r =? half) && N.odd q) then q + 1 else q in
    mk q' (Z.of_N d - Z.of_N k).

Definition truediv (n d : N) : t := truediv_pow2 n (N.log2 d).

(** [x > c] for a float [x] and an [int] [c]: Python compares the two
    exactly. *)
Definition gt_int (x : t) (c : N) : bool :=
  match expo x with
  | Z0 => c <? mant x
  | Zpos e => c <? mant x * 2 ^ Npos e
  | Zneg e => c * 2 ^ Npos e <? mant x
  end.

(** The number of tenths in [format(x, '.1f')]: [10 * x] rounded to the
    nearest integer on the exact value, ties to even. *)
Definition tenths (x : t) : N :=
  match expo x with
  | Z0 => 10 * mant x
  | Zpos e => 10 * mant x * 2 ^ Npos e
  | Zneg e =>
      let den := 2 ^ Npos e in
      let q := (10 * mant x) / den in
      let r := (10 * mant x) mod den in
      if (den <? 2 * r) || ((2 * r =? den) && N.odd q) then q + 1 else q
  end.

(** [f"{x:.1f}"]. *)
Definition format_1f (x : t) : string :=
  let t10 := tenths x in
  PyStr.str_of_N (t10 / 10) +:+ "." +:+ PyStr.str_of_N (t10 mod 10).

End Float.

(** ** The process environment *)

(** What a path that can be opened for reading holds: media the script
    never looks into, known by its length; text stored as UTF-8; or a
    device, FIFO or [/proc] entry, whose reported size says nothing about
    what reading it yields. *)
Inductive contents :=
| Opaque (nbytes : N)
| Utf8 (text : string)
| Special (st_size : N).

Inductive node :=
| File (c : contents)
| Dir (st_size : N).

Definition contents_size (c : contents) : N :=
  match c with
  | Opaque n => n
  | Utf8 text => N.of_nat (String.length text)
  | Special n => n
  end.

Definition node_size (nd : node) : N :=
  match nd with
  | File c => contents_size c
  | Dir n => n
  end.

(** What [client.audio.transcriptions.create(..., response_format="text")]
    does: it returns a [str] or raises. *)
Inductive response :=
| Transcript (text : string)
| Failure (message : string).

(** A Python exception of class [Exception]: an [OSError] with its errno,
    message and file name, or any other with its class and [str(e)]. *)
Inductive exn :=
| OSError (cls : string) (errno : N) (strerror : string)
          (filename : option string)
| Error (cls : string) (message : string).

(** One invocation of the script: [sys.argv], [os.environ], the files on
    disk, and what lies outside the script and the disk:
    - the remote service, as a function of the credential and of the
      uploaded file (its name and bytes);
    - how the interpreter prints a file name in the text of an [OSError];
    - the paths the system refuses to open for writing although they are
      no directory (name too long, no permission, read-only filesystem),
      with the exception [open] raises;
    - the writes that fail after the file was opened (quota, full disk,
      failing flush on close), with the exception raised and the text
      that reached the file.
    Distinct paths of [disk] denote distinct files: links are not
    modelled. *)
Record world := World {
  argv : list string;
  environ : gmap string string;
  disk : gmap string node;
  whisper : string -> string -> contents -> response;
  repr : string -> string;
  open_fault : string -> option exn;
  write_fault : string -> string -> option (exn * string);
}.

(** [str(e)]. *)
Definition str_of (w : world) (e : exn) : string :=
  match e with
  | OSError _ errno strerror (Some filename) =>
      "[Errno " +:+ PyStr.str_of_N errno +:+ "] " +:+ strerror +:+ ": "
      +:+ repr w filename
  | OSError _ errno strerror None =>
      "[Errno " +:+ PyStr.str_of_N errno +:+ "] " +:+ strerror
  | Error _ message => message
  end.

(** Every access the script makes outside its own memory. *)
Inductive event :=
| Getenv (var : string)
| ClientInit
| Exists (path : string)
| Getsize (path : string)
| OpenRead (path : string)
| OpenWrite (path : string)
| OpenFailed (path : string)
| WriteText (path : string) (text : string)
| Close (path : string)
| Upload (path : string).

Definition is_fs_event (e : event) : bool :=
  match e with
  | Exists _ | Getsize _ | OpenRead _ | OpenWrite _ | OpenFailed _
  | WriteText _ _ | Close _ => true
  | Getenv _ | ClientInit | Upload _ => false
  end.

Definition is_net_event (e : event) : bool :=
  match e with
  | Upload _ => true
  | _ => false
  end.

Definition is_write_event (e : event) : bool :=
  match e with
  | OpenWrite _ | WriteText _ _ => true
  | _ => false
  end.

(** The mutable part: the filesystem, what was printed (one entry per
    [print] call), the trace, and the file objects currently open. *)
Record state := State {
  fs : gmap string node;
  stdout : list string;
  trace : list event;
  handles : list string;
}.

Definition boot (w : world) : state :=
  {| fs := disk w; stdout := []; trace := []; handles := [] |}.

(** [s] after more output and more accesses. *)
Definition emit (s : state) (out : list string) (tr : list event) : state :=
  {| fs := fs s; stdout := stdout s ++ out; trace := trace s ++ tr;
     handles := handles s |}.

Definition with_fs (s : state) (fs' : gmap string node) : state :=
  {| fs := fs'; stdout := stdout s; trace := trace s; handles := handles s |}.

(** How a piece of Python code ends: with a value, with an exception of
    class [Exception], or with [SystemExit] (which [except Exception] does
    not catch). *)
Inductive outcome (A : Type) :=
| Return (a : A)
| Raise (e : exn)
| SysExit (code : Z).
Arguments Return {A} a.
Arguments Raise {A} e.
Arguments SysExit {A} code.

Definition M (A : Type) : Type := state -> outcome A * state.

Definition ret {A} (a : A) : M A := fun s => (Return a, s).

Definition bind {A B} (m : M A) (k : A -> M B) : M B :=
  fun s =>
    match m s with
    | (Return a, s') => k a s'
    | (Raise e, s') => (Raise e, s')
    | (SysExit c, s') => (SysExit c, s')
    end.

#[global] Instance M_ret : MRet M := @ret.
#[global] Instance M_bind : MBind M := fun A B k m => bind m k.

Definition raise {A} (e : exn) : M A := fun s => (Raise e, s).

Definition sys_exit {A} (code : Z) : M A := fun s => (SysExit code, s).

(** [try: body except Exception as e: handler(e)]. *)
Definition try_except {A} (body : M A) (handler : exn -> M A) : M A :=
  fun s =>
    match body s with
    | (Raise e, s') => handler e s'
    | r => r
    end.

Definition log (e : event) : M unit :=
  fun s => (Return tt,
            {| fs := fs s; stdout := stdout s; trace := trace s ++ [e];
               handles := handles s |}).

Definition print (line : string) : M unit :=
  fun s => (Return tt,
            {| fs := fs s; stdout := stdout s ++ [line]; trace := trace s;
               handles := handles s |}).

Definition set_fs (f : gmap string node -> gmap string node) : M unit :=
  fun s => (Return tt,
            {| fs := f (fs s); stdout := stdout s; trace := trace s;
               handles := handles s |}).

Definition set_handles (f : list string -> list string) : M unit :=
  fun s => (Return tt,
            {| fs := fs s; stdout := stdout s; trace := trace s;
               handles := f (handles s) |}).

Definition stat (path : string) : M (option node) :=
  fun s => (Return (fs s !! path), s).

(** ** The library calls the script makes *)

Definition OPENAI_API_KEY : string := "OPENAI_API_KEY".

(** [os.getenv(var)]. *)
Definition getenv (w : world) (var : string) : M (option string) :=
  log (Getenv var);; ret (environ w !! var).

(** [not x] for [x = os.getenv(...)]: [None] and [''] are falsy. *)
Definition truthy_opt (x : option string) : bool :=
  match x with
  | Some s => PyStr.truthy s
  | None => false
  end.

(** [OpenAI(api_key=key)]: the constructor raises when it is given no key
    (it falls back on the same environment variable); it opens no
    connection.  The client is represented by the key it holds. *)
Definition OpenAI (key : option string) : M string :=
  log ClientInit;;
  match key with
  | Some k => ret k
  | None =>
      raise (Error "OpenAIError"
               "The api_key client option must be set either by passing api_key to the client or by setting the OPENAI_API_KEY environment variable")
  end.

(** [os.path.exists(path)]: true of files and of directories. *)
Definition path_exists (path : string) : M bool :=
  log (Exists path);;
  nd ← stat path;
  ret (match nd with Some _ => true | None => false end).

Definition FileNotFoundError (path : string) : exn :=
  OSError "FileNotFoundError" 2 "No such file or directory" (Some path).

Definition IsADirectoryError (path : string) : exn :=
  OSError "IsADirectoryError" 21 "Is a directory" (Some path).

(** [os.path.getsize(path)]. *)
Definition getsize (path : string) : M N :=
  log (Getsize path);;
  nd ← stat path;
  match nd with
  | Some nd => ret (node_size nd)
  | None => raise (FileNotFoundError path)
  end.

(** [f.close()], also run by [__exit__]. *)
Fixpoint remove_first (h : string) (hs : list string) : list string :=
  match hs with
  | [] => []
  | h' :: hs' => if String.eqb h' h then hs' else h' :: remove_first h hs'
  end.

Definition close (h : string) : M unit :=
  log (Close h);;
  set_handles (remove_first h).

(** [try: body finally: cleanup]: the cleanup runs however the body ends,
    and the body's outcome is passed on unless the cleanup itself fails. *)
Definition finally {A} (body : M A) (cleanup : M unit) : M A :=
  fun s =>
    let (r, s') := body s in
    match cleanup s' with
    | (Return _, s'') => (r, s'')
    | (Raise e, s'') => (Raise e, s'')
    | (SysExit c, s'') => (SysExit c, s'')
    end.

(** [with open(path, 'rb') as f: body(f)].  The file object is closed when
    the block is left, whether it ends normally, raises or exits; the
    outcome of the block is then passed on. *)
Definition with_open_rb {A} (path : string) (body : string -> M A) : M A :=
  nd ← stat path;
  match nd with
  | Some (File _) =>
      log (OpenRead path);;
      set_handles (cons path);;
      finally (body path) (close path)
  | Some (Dir _) => log (OpenFailed path);; raise (IsADirectoryError path)
  | None => log (OpenFailed path);; raise (FileNotFoundError path)
  end.

(** The exception [open(path, 'w')] raises, if any: a directory cannot be
    opened for writing, and the system may refuse other paths. *)
Definition refusal (w : world) (nd : option node) (path : string)
  : option exn :=
  match nd with
  | Some (Dir _) => Some (IsADirectoryError path)
  | _ => open_fault w path
  end.

(** [with open(path, 'w', encoding='utf-8') as f: body(f)].  When the open
    is refused nothing is created; otherwise the file is created or
    truncated to length zero before the body runs, and closed however the
    body ends. *)
Definition with_open_w {A} (w : world) (path : string)
    (body : string -> M A) : M A :=
  nd ← stat path;
  match refusal w nd path with
  | Some e => log (OpenFailed path);; raise e
  | None =>
      log (OpenWrite path);;
      set_fs (insert path (File (Utf8 "")));;
      set_handles (cons path);;
      finally (body path) (close path)
  end.

(** [f.write(text)] on a file object opened for writing text, together
    with the flush that closing it performs: the text is added after what
    the file object has written so far, or, when the write fails, the part
    that reached the file is and the exception is raised. *)
Definition write (w : world) (h : string) (text : string) : M unit :=
  log (WriteText h text);;
  nd ← stat h;
  match nd with
  | Some (File (Utf8 old)) =>
      match write_fault w h text with
      | None => set_fs (insert h (File (Utf8 (old +:+ text))))
      | Some (e, reached) =>
          set_fs (insert h (File (Utf8 (old +:+ reached))));;
          raise e
      end
  | _ => raise (Error "ValueError" "I/O operation on closed file.")
  end.

(** [client.audio.transcriptions.create(model="whisper-1", file=f,
    response_format="text")]: one request, answered by the service. *)
Definition transcriptions_create (w : world) (client : string) (h : string)
  : M string :=
  log (Upload h);;
  nd ← stat h;
  match nd with
  | Some (File c) =>
      match whisper w client h c with
      | Transcript text => ret text
      | Failure message => raise (Error "APIError" message)
      end
  | _ => raise (Error "ValueError" "read of closed file")
  end.

(** ** The script *)

Definition nl : string := String "010"%char "".

Definition rule : string := PyStr.replicate_char 50 "="%char.

Definition MiB : N := 1024 * 1024.

Definition transcribe_mp4 (w : world) (file_path : string) : M (option string) :=
  key ← getenv w OPENAI_API_KEY;
  client ← OpenAI key;
  found ← path_exists file_path;
  if negb found then
    print ("Error: File '" +:+ file_path +:+ "' not found.");;
    ret None
  else
    nbytes ← getsize file_path;
    let file_size := Float.truediv nbytes MiB in
    if Float.gt_int file_size 25 then
      print ("Error: File size (" +:+ Float.format_1f file_size
             +:+ "MB) exceeds OpenAI's 25MB limit.");;
      print "Consider splitting the file or using a smaller file.";;
      ret None
    else
      print ("Transcribing: " +:+ file_path);;
      print ("File size: " +:+ Float.format_1f file_size +:+ "MB");;
      print "Processing... (this may take a moment)";;
      try_except
        (transcript ← with_open_rb file_path
                        (fun audio_file => transcriptions_create w client audio_file);
         ret (Some transcript))
        (fun e =>
           print ("Error during transcription: " +:+ str_of w e);;
           ret None).

Definition output_name (file_path : string) : string :=
  Pathlib.stem file_path +:+ "_transcript.txt".

Definition main (w : world) : M unit :=
  if negb (Nat.eqb (length (argv w)) 2) then
    print "Usage: python transcribe_mp4.py <path_to_mp4_file>";;
    print "Example: python transcribe_mp4.py ./my_video.mp4";;
    sys_exit 1%Z
  else
    let file_path := nth 1 (argv w) "" in
    key ← getenv w OPENAI_API_KEY;
    if negb (truthy_opt key) then
      print "Error: OPENAI_API_KEY environment variable is not set.";;
      print "Make sure your .env file is loaded or export the key manually.";;
      sys_exit 1%Z
    else
      transcript ← transcribe_mp4 w file_path;
      match transcript with
      | Some text =>
          if PyStr.truthy text then
            print (nl +:+ rule);;
            print "TRANSCRIPTION:";;
            print rule;;
            print text;;
            print rule;;
            let output_file := output_name file_path in
            with_open_w w output_file (fun f => write w f text);;
            print (nl +:+ "Transcription saved to: " +:+ output_file)
          else
            print "Transcription failed.";;
            sys_exit 1%Z
      | None =>
          print "Transcription failed.";;
          sys_exit 1%Z
      end.

(** The status the interpreter exits with: 0 when [main] returns, the
    argument of [sys.exit], and 1 after an uncaught exception. *)
Definition exit_status {A} (o : outcome A) : Z :=
  match o with
  | Return _ => 0
  | SysExit c => c
  | Raise _ => 1
  end.

Definition run (w : world) : outcome unit * state := main w (boot w).

(** ** What each path through the script prints and touches *)

Definition usage_text : list string :=
  [ "Usage: python transcribe_mp4.py <path_to_mp4_file>";
    "Example: python transcribe_mp4.py ./my_video.mp4" ].

Definition credential_text : list string :=
  [ "Error: OPENAI_API_KEY environment variable is not set.";
    "Make sure your .env file is loaded or export the key manually." ].

Definition not_found_text (path : string) : list string :=
  [ "Error: File '" +:+ path +:+ "' not found." ].

Definition size_mb (nbytes : N) : string :=
  Float.format_1f (Float.truediv nbytes MiB).

Definition too_large_text (nbytes : N) : list string :=
  [ "Error: File size (" +:+ size_mb nbytes +:+ "MB) exceeds OpenAI's 25MB limit.";
    "Consider splitting the file or using a smaller file." ].

Definition progress_text (path : string) (nbytes : N) : list string :=
  [ "Transcribing: " +:+ path;
    "File size: " +:+ size_mb nbytes +:+ "MB";
    "Processing... (this may take a moment)" ].

Definition remote_error_text (message : string) : list string :=
  [ "Error during transcription: " +:+ message ].

Definition transcript_text (text : string) : list string :=
  [ nl +:+ rule; "TRANSCRIPTION:"; rule; text; rule ].

Definition saved_text (path : string) : list string :=
  [ nl +:+ "Transcription saved to: " +:+ output_name path ].

Definition failed_text : list string := [ "Transcription failed." ].

Definition checks_trace (path : string) : list event :=
  [ Getenv OPENAI_API_KEY; ClientInit; Exists path; Getsize path ].

Definition upload_trace (path : string) : list event :=
  [ OpenRead path; Upload path; Close path ].

Definition save_trace (path : string) (text : string) : list event :=
  [ OpenWrite (output_name path); WriteText (output_name path) text;
    Close (output_name path) ].

Definition main_trace (path : string) : list event :=
  Getenv OPENAI_API_KEY :: checks_trace path.

(** ** The paths through [main]

    One constructor per way the script can run, with the conditions on the
    invocation that select it and the outcome and final state it leaves. *)

Inductive path (w : world) : outcome unit * state -> Prop :=
| path_usage :
    length (argv w) <> 2%nat ->
    path w (SysExit 1, emit (boot w) usage_text [])
| path_no_credential a0 p :
    argv w = [a0; p] ->
    truthy_opt (environ w !! OPENAI_API_KEY) = false ->
    path w (SysExit 1, emit (boot w) credential_text [Getenv OPENAI_API_KEY])
| path_missing a0 p k :
    argv w = [a0; p] ->
    environ w !! OPENAI_API_KEY = Some k -> PyStr.truthy k = true ->
    disk w !! p = None ->
    path w (SysExit 1,
            emit (boot w) (not_found_text p ++ failed_text)
                 [Getenv OPENAI_API_KEY; Getenv OPENAI_API_KEY; ClientInit;
                  Exists p])
| path_too_large a0 p k nd :
    argv w = [a0; p] ->
    environ w !! OPENAI_API_KEY = Some k -> PyStr.truthy k = true ->
    disk w !! p = Some nd ->
    25 * MiB < node_size nd ->
    path w (SysExit 1,
            emit (boot w) (too_large_text (node_size nd) ++ failed_text)
                 (main_trace p))
| path_directory a0 p k n :
    argv w = [a0; p] ->
    environ w !! OPENAI_API_KEY = Some k -> PyStr.truthy k = true ->
    disk w !! p = Some (Dir n) ->
    n <= 25 * MiB ->
    path w (SysExit 1,
            emit (boot w)
                 (progress_text p n
                  ++ remote_error_text (str_of w (IsADirectoryError p))
                  ++ failed_text)
                 (main_trace p ++ [OpenFailed p]))
| path_remote_error a0 p k c message :
    argv w = [a0; p] ->
    environ w !! OPENAI_API_KEY = Some k -> PyStr.truthy k = true ->
    disk w !! p = Some (File c) ->
    contents_size c <= 25 * MiB ->
    whisper w k p c = Failure message ->
    path w (SysExit 1,
            emit (boot w)
                 (progress_text p (contents_size c)
                  ++ remote_error_text message ++ failed_text)
                 (main_trace p ++ upload_trace p))
| path_empty a0 p k c text :
    argv w = [a0; p] ->
    environ w !! OPENAI_API_KEY = Some k -> PyStr.truthy k = true ->
    disk w !! p = Some (File c) ->
    contents_size c <= 25 * MiB ->
    whisper w k p c = Transcript text ->
    PyStr.truthy text = false ->
    path w (SysExit 1,
            emit (boot w)
                 (progress_text p (contents_size c) ++ failed_text)
                 (main_trace p ++ upload_trace p))
| path_open_refused a0 p k c text e :
    argv w = [a0; p] ->
    environ w !! OPENAI_API_KEY = Some k -> PyStr.truthy k = true ->
    disk w !! p = Some (File c) ->
    contents_size c <= 25 * MiB ->
    whisper w k p c = Transcript text ->
    PyStr.truthy text = true ->
    refusal w (disk w !! output_name p) (output_name p) = Some e ->
    path w (Raise e,
            emit (boot w)
                 (progress_text p (contents_size c) ++ transcript_text text)
                 (main_trace p ++ upload_trace p
                  ++ [OpenFailed (output_name p)]))
| path_write_failed a0 p k c text e reached :
    argv w = [a0; p] ->
    environ w !! OPENAI_API_KEY = Some k -> PyStr.truthy k = true ->
    disk w !! p = Some (File c) ->
    contents_size c <= 25 * MiB ->
    whisper w k p c = Transcript text ->
    PyStr.truthy text = true ->
    refusal w (disk w !! output_name p) (output_name p) = None ->
    write_fault w (output_name p) text = Some (e, reached) ->
    path w (Raise e,
            with_fs
              (emit (boot w)
                    (progress_text p (contents_size c) ++ transcript_text text)
                    (main_trace p ++ upload_trace p ++ save_trace p text))
              (<[output_name p := File (Utf8 reached)]> (disk w)))
| path_success a0 p k c text :
    argv w = [a0; p] ->
    environ w !! OPENAI_API_KEY = Some k -> PyStr.truthy k = true ->
    disk w !! p = Some (File c) ->
    contents_size c <= 25 * MiB ->
    whisper w k p c = Transcript text ->
    PyStr.truthy text = true ->
    refusal w (disk w !! output_name p) (output_name p) = None ->
    write_fault w (output_name p) text = None ->
    path w (Return tt,
            with_fs
              (emit (boot w)
                    (progress_text p (contents_size c)
                     ++ transcript_text text ++ saved_text p)
                    (main_trace p ++ upload_trace p ++ save_trace p text))
              (<[output_name p := File (Utf8 text)]> (disk w))).

(** ** Vocabulary of the properties *)

(** The positional arguments: [sys.argv[1:]]. *)
Definition positional (w : world) : list string := tail (argv w).

(** The credential as the script sees it. *)
Definition credential (w : world) : option string :=
  environ w !! OPENAI_API_KEY.

Definition fs_accesses (tr : list event) : list event :=
  List.filter is_fs_event tr.

Definition net_accesses (tr : list event) : list event :=
  List.filter is_net_event tr.

Definition writes (tr : list event) : list event :=
  List.filter is_write_event tr.


(** Every file object opened for reading is handed to one upload and
    closed right after it. *)
Fixpoint scoped_reads (tr : list event) : bool :=
  match tr with
  | [] => true
  | OpenRead p :: rest =>
      match rest with
      | Upload p1 :: Close p2 :: rest' =>
          String.eqb p p1 && String.eqb p p2 && scoped_reads rest'
      | _ => false
      end
  | _ :: rest => scoped_reads rest
  end.

(** The failures the command-line interface documents. *)
Inductive failure (w : world) : Prop :=
| wrong_argument_count :
    length (positional w) <> 1%nat -> failure w
| missing_credential :
    truthy_opt (credential w) = false -> failure w
| file_not_found a0 p :
    argv w = [a0; p] -> disk w !! p = None -> failure w
| size_limit_exceeded a0 p nd :
    argv w = [a0; p] -> disk w !! p = Some nd ->
    25 * MiB < node_size nd -> failure w
| remote_call_failed a0 p k c message :
    argv w = [a0; p] -> credential w = Some k ->
    disk w !! p = Some (File c) ->
    whisper w k p c = Failure message -> failure w.

(** A transcript was obtained for the input and is what the output file
    holds in the final state. *)
Definition transcribed_and_written (w : world) (s : state) : Prop :=
  exists a0 p k c text,
    argv w = [a0; p] /\ credential w = Some k /\
    disk w !! p = Some (File c) /\
    whisper w k p c = Transcript text /\ PyStr.truthy text = true /\
    fs s !! output_name p = Some (File (Utf8 text)).

(** Opening [path] for writing succeeds, and so do writing [text] to it
    and closing it. *)
Definition output_writable (w : world) (path text : string) : Prop :=
  refusal w (disk w !! path) path = None /\ write_fault w path text = None.

(** The same invocation once more, on the disk the first run left. *)
Definition rerun (w : world) : world :=
  {| argv := argv w; environ := environ w; disk := fs (snd (run w));
     whisper := whisper w; repr := repr w; open_fault := open_fault w;
     write_fault := write_fault w |}.

(** ** Sample invocations *)

Definition demo_service (key name : string) (c : contents) : response :=
  if String.eqb key "sk-demo" then
    match c with
    | Opaque 0 => Transcript ""
    | Opaque _ => Transcript "hello world"
    | Utf8 _ => Failure "Invalid file format."
    | Special _ => Failure "Connection error."
    end
  else Failure "Incorrect API key provided.".

(** A system whose file names hold at most 255 bytes. *)
Definition name_too_long (path : string) : option exn :=
  if (255 <? String.length path)%nat then
    Some (OSError "OSError" 36 "File name too long" (Some path))
  else None.

Definition demo (args : list string) (key : option string)
    (files : gmap string node) : world :=
  {| argv := "transcribe_mp4.py" :: args;
     environ := match key with
                | Some k => {[ OPENAI_API_KEY := k ]}
                | None => ∅
                end;
     disk := files;
     whisper := demo_service;
     repr := PyStr.repr;
     open_fault := name_too_long;
     write_fault := fun _ _ => None |}.

(** The same system with no room left on the disk. *)
Definition on_full_disk (w : world) : world :=
  {| argv := argv w; environ := environ w; disk := disk w;
     whisper := whisper w; repr := repr w; open_fault := open_fault w;
     write_fault := fun _ _ =>
       Some (OSError "OSError" 28 "No space left on device" None, "") |}.

Definition clip_world : world :=
  demo ["clip.mp4"] (Some "sk-demo") {[ "clip.mp4" := File (Opaque 1000) ]}.

Definition blocked_world : world :=
  demo ["clip.mp4"] (Some "sk-demo")
       {[ "clip.mp4" := File (Opaque 1000);
          "clip_transcript.txt" := Dir 4096 ]}.


Definition oversize_world : world :=
  demo ["clip.mp4"] (Some "sk-demo")
       {[ "clip.mp4" := File (Opaque (25 * 1048576 + 1)) ]}.

Definition silent_world : world :=
  demo ["silence.mp4"] (Some "sk-demo") {[ "silence.mp4" := File (Opaque 0) ]}.

Definition notes_world : world :=
  demo ["notes.txt"] (Some "sk-demo") {[ "notes.txt" := File (Utf8 "abc") ]}.

Definition keyless_world : world :=
  demo ["clip.mp4"] None {[ "clip.mp4" := File (Opaque 1000) ]}.

Definition bare_world : world :=
  demo [] (Some "sk-demo") {[ "clip.mp4" := File (Opaque 1000) ]}.

Definition absent_world : world :=
  demo ["gone.mp4"] (Some "sk-demo") ∅.

(** [sys.argv[1]], the path the script works on. *)
Definition input_path (w : world) : string := nth 1 (argv w) "".

(** Some printed line starts with [Error]. *)
Definition reports_error (out : list string) : bool :=
  existsb (String.prefix "Error") out.

Definition full_disk_world : world :=
  on_full_disk
    (demo ["clip.mp4"] (Some "sk-demo")
          {[ "clip.mp4" := File (Opaque 1000);
             "clip_transcript.txt" := File (Utf8 "an older transcript") ]}).

Definition long_name_world : world :=
  let name := PyStr.replicate_char 245 "a" +:+ ".mp4" in
  demo [name] (Some "sk-demo") {[ name := File (Opaque 1000) ]}.

Definition folder_world : world :=
  demo ["recordings"] (Some "sk-demo")
       {[ "recordings" := Dir 4096;
          "recordings/clip.mp4" := File (Opaque 1000) ]}.

(** * Properties *)

(** ** Sanity checks of the library model *)

Example stem_clip : Pathlib.stem "clip.mp4" = "clip".
Proof. reflexivity. Qed.

Example stem_examples :
  map Pathlib.stem [ "dir/sub/a.b.c"; ".bashrc"; "trail."; "a/b/"; "."; "/"; ".."; "./x.wav" ]
  = [ "a.b"; ".bashrc"; "trail."; "b"; ""; ""; ".."; "x" ].
Proof. reflexivity. Qed.

Example format_examples :
  map (fun n => Float.format_1f (Float.truediv_pow2 n 20))
      [ 0; 52428; 52429; 1048576; 26214400; 26214401; 27000000; 2 ^ 60 + 12345 ]
  = [ "0.0"; "0.0"; "0.1"; "1.0"; "25.0"; "25.0"; "25.7"; "1099511627776.0" ].
Proof. vm_compute. reflexivity. Qed.

Example repr_examples :
  PyStr.repr "clip.mp4" = "'clip.mp4'" /\
  PyStr.repr "it's" = String PyStr.dquote ("it's" +:+ String PyStr.dquote "") /\
  PyStr.repr (String "a" (String PyStr.backslash "b"))
  = String "'" (String "a" (String PyStr.backslash (String PyStr.backslash "b'"))) /\
  PyStr.repr (String "001" "z") = String "'" (String PyStr.backslash "x01z'").
Proof. repeat split. Qed.

(** The output name of a 249-byte input name has 260 bytes: the open is
    refused and the run ends with status 1, nothing written. *)
Example long_name_not_saved :
  String.length (output_name (input_path long_name_world)) = 260%nat /\
  exit_status (fst (run long_name_world)) = 1%Z /\
  fs (snd (run long_name_world)) = disk long_name_world.
Proof. repeat split; vm_compute; reflexivity. Qed.

(** A full disk: the output file is truncated, then the write fails. *)
Example full_disk_truncates :
  exit_status (fst (run full_disk_world)) = 1%Z /\
  disk full_disk_world !! "clip_transcript.txt"
  = Some (File (Utf8 "an older transcript")) /\
  fs (snd (run full_disk_world)) !! "clip_transcript.txt"
  = Some (File (Utf8 "")) /\
  handles (snd (run full_disk_world)) = [].
Proof. repeat split. Qed.

(** ** The size check is exact *)

Lemma log2_MiB : N.log2 MiB = 20.
Proof. reflexivity. Qed.

Lemma shiftr_top_bits n : 2 ^ 53 <= n -> 2 ^ 52 <= N.shiftr n (N.log2 n - 52).
Proof.
  intros Hn.
  assert (Hpos : 0 < n).
  { change (2 ^ 53) with 9007199254740992 in Hn. lia. }
  assert (Hlog : 53 <= N.log2 n).
  { apply N.log2_le_pow2; [exact Hpos | exact Hn]. }
  destruct (N.log2_spec n Hpos) as [Hlo _].
  rewrite N.shiftr_div_pow2.
  replace (N.log2 n) with (52 + (N.log2 n - 52)) in Hlo at 1 by lia.
  rewrite N.pow_add_r in Hlo.
  apply N.div_le_lower_bound.
  - apply N.pow_nonzero. discriminate.
  - lia.
Qed.

Lemma gt_int_large q d :
  2 ^ 52 <= q -> 1 <= d ->
  Float.gt_int (Float.mk q (Z.of_N d - Z.of_N 20)) 25 = true.
Proof.
  intros Hq Hd. unfold Float.gt_int; cbn [Float.expo Float.mant].
  change (2 ^ 52) with 4503599627370496 in Hq.
  destruct (Z.of_N d - Z.of_N 20)%Z as [| e | e] eqn:He; apply N.ltb_lt.
  - lia.
  - assert (2 ^ N.pos e <> 0) by (apply N.pow_nonzero; discriminate).
    nia.
  - assert (He' : N.pos e <= 19) by lia.
    assert (2 ^ N.pos e <= 2 ^ 19) by (apply N.pow_le_mono_r; [discriminate | exact He']).
    change (2 ^ 19) with 524288 in *. lia.
Qed.

Lemma size_check_exact n :
  Float.gt_int (Float.truediv n MiB) 25 = (25 * MiB <? n).
Proof.
  unfold Float.truediv. rewrite log2_MiB. unfold Float.truediv_pow2, Float.precision.
  destruct (N.ltb_spec n (2 ^ 53)) as [Hsmall | Hbig].
  - reflexivity.
  - pose proof (shiftr_top_bits n Hbig) as Hq.
    assert (Hlim : 25 * MiB < n).
    { eapply N.lt_le_trans; [| exact Hbig]. reflexivity. }
    apply N.ltb_lt in Hlim. rewrite Hlim.
    assert (Hd : 1 <= N.log2 n - 52).
    { assert (53 <= N.log2 n); [| lia].
      apply N.log2_le_pow2; [| exact Hbig].
      change (2 ^ 53) with 9007199254740992 in Hbig. lia. }
    cbv zeta.
    match goal with |- context [if ?b then _ + 1 else _] => destruct b end;
      apply gt_int_large; lia.
Qed.

(** ** The paths of [transcribe_mp4], one equation each *)

Ltac unfold_script :=
  cbv beta iota zeta delta
    [transcribe_mp4 main run mbind M_bind bind mret M_ret ret raise sys_exit
     try_except finally log print set_fs set_handles stat getenv OpenAI
     path_exists getsize close with_open_rb with_open_w write
     transcriptions_create boot negb];
  cbn [fs stdout trace handles].

Ltac tidy_state :=
  unfold emit, with_fs; cbn [fs stdout trace handles];
  repeat rewrite <- app_assoc; cbn [app].

Lemma remove_first_head h hs : remove_first h (h :: hs) = hs.
Proof. cbn. rewrite String.eqb_refl. reflexivity. Qed.


Ltac size_check H :=
  rewrite size_check_exact;
  first [ rewrite (proj2 (N.ltb_lt _ _) H) | rewrite (proj2 (N.ltb_ge _ _) H) ].

Section Transcribe.
Variables (w : world) (file_path : string) (s : state).

Lemma transcribe_no_key :
  environ w !! OPENAI_API_KEY = None ->
  exists e, transcribe_mp4 w file_path s
            = (Raise e, emit s [] [Getenv OPENAI_API_KEY; ClientInit]).
Proof.
  intros Hkey. eexists. unfold_script. rewrite Hkey. unfold_script.
  tidy_state. rewrite app_nil_r. reflexivity.
Qed.

Variable k : string.
Hypothesis Hkey : environ w !! OPENAI_API_KEY = Some k.

Lemma transcribe_missing :
  fs s !! file_path = None ->
  transcribe_mp4 w file_path s
  = (Return None,
     emit s (not_found_text file_path)
            [Getenv OPENAI_API_KEY; ClientInit; Exists file_path]).
Proof.
  intros Hfs. unfold_script. rewrite Hkey. unfold_script.
  rewrite Hfs. tidy_state. reflexivity.
Qed.

Lemma transcribe_too_large nd :
  fs s !! file_path = Some nd ->
  25 * MiB < node_size nd ->
  transcribe_mp4 w file_path s
  = (Return None,
     emit s (too_large_text (node_size nd)) (checks_trace file_path)).
Proof.
  intros Hfs Hsz. unfold_script. rewrite Hkey. unfold_script.
  rewrite Hfs. unfold_script. rewrite Hfs. unfold_script.
  size_check Hsz. tidy_state.
  reflexivity.
Qed.

Lemma transcribe_directory n :
  fs s !! file_path = Some (Dir n) ->
  n <= 25 * MiB ->
  transcribe_mp4 w file_path s
  = (Return None,
     emit s (progress_text file_path n
             ++ remote_error_text (str_of w (IsADirectoryError file_path)))
            (checks_trace file_path ++ [OpenFailed file_path])).
Proof.
  intros Hfs Hsz. unfold_script. rewrite Hkey. unfold_script.
  rewrite Hfs. unfold_script. rewrite Hfs. unfold_script.
  cbn [node_size]. size_check Hsz.
  unfold_script. rewrite Hfs. unfold_script. tidy_state.
  reflexivity.
Qed.

Lemma transcribe_ok c text :
  fs s !! file_path = Some (File c) ->
  contents_size c <= 25 * MiB ->
  whisper w k file_path c = Transcript text ->
  transcribe_mp4 w file_path s
  = (Return (Some text),
     emit s (progress_text file_path (contents_size c))
            (checks_trace file_path ++ upload_trace file_path)).
Proof.
  intros Hfs Hsz Hsvc. unfold_script. rewrite Hkey. unfold_script.
  rewrite Hfs. unfold_script. rewrite Hfs. unfold_script.
  cbn [node_size]. size_check Hsz.
  unfold_script. rewrite Hfs. unfold_script. rewrite Hfs, Hsvc.
  unfold_script. rewrite remove_first_head. tidy_state.
  reflexivity.
Qed.

Lemma transcribe_remote_error c message :
  fs s !! file_path = Some (File c) ->
  contents_size c <= 25 * MiB ->
  whisper w k file_path c = Failure message ->
  transcribe_mp4 w file_path s
  = (Return None,
     emit s (progress_text file_path (contents_size c)
             ++ remote_error_text message)
            (checks_trace file_path ++ upload_trace file_path)).
Proof.
  intros Hfs Hsz Hsvc. unfold_script. rewrite Hkey. unfold_script.
  rewrite Hfs. unfold_script. rewrite Hfs. unfold_script.
  cbn [node_size]. size_check Hsz.
  unfold_script. rewrite Hfs. unfold_script. rewrite Hfs, Hsvc.
  unfold_script. rewrite remove_first_head. tidy_state.
  reflexivity.
Qed.
End Transcribe.

(** ** The paths of [main], one equation each *)

Ltac unfold_main :=
  cbv beta iota zeta delta
    [main run mbind M_bind bind mret M_ret ret raise sys_exit
     try_except finally log print set_fs set_handles stat getenv
     close with_open_w write boot negb];
  cbn [fs stdout trace handles].

Section Main.
Variable w : world.

Lemma main_usage :
  length (argv w) <> 2%nat ->
  run w = (SysExit 1, emit (boot w) usage_text []).
Proof.
  intros Hlen. unfold_main.
  destruct (Nat.eqb_spec (length (argv w)) 2) as [Heq | _]; [contradiction |].
  reflexivity.
Qed.

Variables a0 file_path : string.
Hypothesis Hargv : argv w = [a0; file_path].

Lemma main_no_credential :
  truthy_opt (environ w !! OPENAI_API_KEY) = false ->
  run w = (SysExit 1, emit (boot w) credential_text [Getenv OPENAI_API_KEY]).
Proof.
  intros Hkey. unfold_main. rewrite Hargv. cbn [length Nat.eqb nth].
  rewrite Hkey. reflexivity.
Qed.

Variable k : string.
Hypothesis Hkey : environ w !! OPENAI_API_KEY = Some k.
Hypothesis Hset : PyStr.truthy k = true.

Ltac enter :=
  unfold_main; rewrite Hargv; cbn [length Nat.eqb nth];
  rewrite Hkey; cbn [truthy_opt]; rewrite Hset; unfold_main.

Lemma main_missing :
  disk w !! file_path = None ->
  run w = (SysExit 1,
           emit (boot w) (not_found_text file_path ++ failed_text)
                [Getenv OPENAI_API_KEY; Getenv OPENAI_API_KEY; ClientInit;
                 Exists file_path]).
Proof.
  intros Hfs. enter.
  erewrite transcribe_missing by eassumption. reflexivity.
Qed.

Lemma main_too_large nd :
  disk w !! file_path = Some nd ->
  25 * MiB < node_size nd ->
  run w = (SysExit 1,
           emit (boot w) (too_large_text (node_size nd) ++ failed_text)
                (main_trace file_path)).
Proof.
  intros Hfs Hsz. enter.
  erewrite transcribe_too_large by eassumption. reflexivity.
Qed.

Lemma main_directory n :
  disk w !! file_path = Some (Dir n) ->
  n <= 25 * MiB ->
  run w = (SysExit 1,
           emit (boot w)
                (progress_text file_path n
                 ++ remote_error_text (str_of w (IsADirectoryError file_path))
                 ++ failed_text)
                (main_trace file_path ++ [OpenFailed file_path])).
Proof.
  intros Hfs Hsz. enter.
  erewrite transcribe_directory by eassumption. reflexivity.
Qed.

Variable c : contents.
Hypothesis Hfile : disk w !! file_path = Some (File c).
Hypothesis Hsize : contents_size c <= 25 * MiB.

Lemma main_remote_error message :
  whisper w k file_path c = Failure message ->
  run w = (SysExit 1,
           emit (boot w)
                (progress_text file_path (contents_size c)
                 ++ remote_error_text message ++ failed_text)
                (main_trace file_path ++ upload_trace file_path)).
Proof.
  intros Hsvc. enter.
  erewrite transcribe_remote_error by eassumption. reflexivity.
Qed.

Lemma main_empty text :
  whisper w k file_path c = Transcript text ->
  PyStr.truthy text = false ->
  run w = (SysExit 1,
           emit (boot w)
                (progress_text file_path (contents_size c) ++ failed_text)
                (main_trace file_path ++ upload_trace file_path)).
Proof.
  intros Hsvc Hempty. enter.
  erewrite transcribe_ok by eassumption. unfold_main. rewrite Hempty.
  reflexivity.
Qed.

Variable text : string.
Hypothesis Hsvc : whisper w k file_path c = Transcript text.
Hypothesis Htext : PyStr.truthy text = true.

Lemma main_open_refused e :
  refusal w (disk w !! output_name file_path) (output_name file_path) = Some e ->
  run w = (Raise e,
           emit (boot w)
                (progress_text file_path (contents_size c)
                 ++ transcript_text text)
                (main_trace file_path ++ upload_trace file_path
                 ++ [OpenFailed (output_name file_path)])).
Proof.
  intros Hout. enter.
  erewrite transcribe_ok by eassumption. unfold emit. unfold_main.
  rewrite Htext. unfold_main. rewrite Hout. reflexivity.
Qed.

Lemma main_write_failed e reached :
  refusal w (disk w !! output_name file_path) (output_name file_path) = None ->
  write_fault w (output_name file_path) text = Some (e, reached) ->
  run w = (Raise e,
           with_fs
             (emit (boot w)
                   (progress_text file_path (contents_size c)
                    ++ transcript_text text)
                   (main_trace file_path ++ upload_trace file_path
                    ++ save_trace file_path text))
             (<[output_name file_path := File (Utf8 reached)]> (disk w))).
Proof.
  intros Hout Hfault. enter.
  erewrite transcribe_ok by eassumption. unfold emit. unfold_main.
  rewrite Htext. unfold_main. rewrite Hout. unfold_main.
  rewrite lookup_insert_eq. unfold_main. rewrite Hfault. unfold_main.
  rewrite remove_first_head, insert_insert_eq. reflexivity.
Qed.

Lemma main_success :
  refusal w (disk w !! output_name file_path) (output_name file_path) = None ->
  write_fault w (output_name file_path) text = None ->
  run w = (Return tt,
           with_fs
             (emit (boot w)
                   (progress_text file_path (contents_size c)
                    ++ transcript_text text ++ saved_text file_path)
                   (main_trace file_path ++ upload_trace file_path
                    ++ save_trace file_path text))
             (<[output_name file_path := File (Utf8 text)]> (disk w))).
Proof.
  intros Hout Hfault. enter.
  erewrite transcribe_ok by eassumption. unfold emit. unfold_main.
  rewrite Htext. unfold_main. rewrite Hout. unfold_main.
  rewrite lookup_insert_eq. unfold_main. rewrite Hfault. unfold_main.
  rewrite remove_first_head, insert_insert_eq. reflexivity.
Qed.
End Main.

(** ** The output name is never the input path *)

Section PathFacts.
Import PyStr Pathlib.

Lemma app_cons a (s t : string) : String a s +:+ t = String a (s +:+ t).
Proof. reflexivity. Qed.

Lemma string_length_app (s t : string) :
  String.length (s +:+ t) = (String.length s + String.length t)%nat.
Proof.
  induction s as [| a s IH]; [reflexivity |].
  rewrite app_cons. cbn [String.length]. rewrite IH. reflexivity.
Qed.

Lemma contains_char_app c (s t : string) :
  contains_char c (s +:+ t) = contains_char c s || contains_char c t.
Proof.
  induction s as [| a s IH]; [reflexivity |].
  rewrite app_cons. cbn [contains_char]. destruct (Ascii.eqb a c); [reflexivity | exact IH].
Qed.

Lemma split_no_sep sep s : contains_char sep s = false -> split sep s = [s].
Proof.
  induction s as [| a s IH]; [reflexivity |].
  cbn [contains_char split]. destruct (Ascii.eqb a sep); [discriminate |].
  intros H. rewrite (IH H). reflexivity.
Qed.

Lemma split_components sep s :
  Forall (fun part => contains_char sep part = false) (split sep s).
Proof.
  induction s as [| a s IH]; cbn [split].
  - repeat constructor.
  - destruct (Ascii.eqb a sep) eqn:Ha.
    + constructor; [reflexivity | exact IH].
    + destruct (split sep s) as [| h t].
      * repeat constructor. cbn [contains_char]. rewrite Ha. reflexivity.
      * inversion IH; subst. constructor; [| assumption].
        cbn [contains_char]. rewrite Ha. assumption.
Qed.

Lemma name_no_slash path : contains_char "/" (name path) = false.
Proof.
  unfold name, parts.
  pose proof (split_components "/" path) as Hall.
  induction (split "/" path) as [| h t IH]; [reflexivity |].
  inversion Hall as [| ? ? Hh Ht]; subst. cbn [List.filter].
  destruct (keeps h).
  - specialize (IH Ht). cbn [List.last].
    destruct (List.filter keeps t); [exact Hh | exact IH].
  - exact (IH Ht).
Qed.

Lemma rcut_left_clean c x s l r :
  rcut c s = Some (l, r) -> contains_char x s = false -> contains_char x l = false.
Proof.
  revert l r. induction s as [| a s IH]; intros l r; [discriminate |].
  cbn [rcut contains_char].
  destruct (Ascii.eqb a x) eqn:Hax; [discriminate |].
  destruct (rcut c s) as [[l' r'] |].
  - intros [= <- <-] Hs. cbn [contains_char]. rewrite Hax. eauto.
  - destruct (Ascii.eqb a c); [| discriminate]. intros [= <- <-] _. reflexivity.
Qed.

Lemma stem_no_slash path : contains_char "/" (stem path) = false.
Proof.
  unfold stem, stem_of_name.
  pose proof (name_no_slash path) as Hn.
  destruct (rcut "." (name path)) as [[l r] |] eqn:Hcut; [| exact Hn].
  destruct (truthy l && truthy r); [| exact Hn].
  eapply rcut_left_clean; eassumption.
Qed.

Lemma rcut_suffixed s :
  rcut "." (s +:+ "_transcript.txt") = Some (s +:+ "_transcript", "txt").
Proof.
  induction s as [| a s IH]; [reflexivity |].
  rewrite !app_cons. cbn [rcut]. rewrite IH. reflexivity.
Qed.

Lemma truthy_app_r (s t : string) : truthy t = true -> truthy (s +:+ t) = true.
Proof. destruct s; [trivial | reflexivity]. Qed.

Lemma keeps_suffixed s : keeps (s +:+ "_transcript.txt") = true.
Proof.
  destruct s as [| a s]; [reflexivity |].
  unfold keeps. rewrite app_cons. cbn [String.eqb negb andb].
  destruct (Ascii.eqb a "."); [| reflexivity].
  destruct s; reflexivity.
Qed.

Lemma stem_suffixed s :
  contains_char "/" s = false ->
  stem (s +:+ "_transcript.txt") = s +:+ "_transcript".
Proof.
  intros Hs. unfold stem, name, parts.
  rewrite split_no_sep by (rewrite contains_char_app, Hs; reflexivity).
  cbn [List.filter]. rewrite keeps_suffixed. cbn [List.last].
  unfold stem_of_name. rewrite rcut_suffixed.
  rewrite truthy_app_r by reflexivity. reflexivity.
Qed.

(** The output file is never the input file. *)
Lemma output_name_fresh path : output_name path <> path.
Proof.
  unfold output_name. intros Heq.
  pose proof (stem_suffixed (stem path) (stem_no_slash path)) as Hst.
  rewrite Heq in Hst.
  apply (f_equal String.length) in Hst. rewrite string_length_app in Hst.
  cbn [String.length] in Hst. lia.
Qed.
End PathFacts.

(** ** Every run takes one of the paths *)

(** The conditions of the constructors of [path] cover all invocations. *)
Lemma run_path w : path w (run w).
Proof.
  destruct (Nat.eq_dec (length (argv w)) 2%nat) as [Hlen | Hlen].
  2:{ rewrite main_usage by exact Hlen. constructor. exact Hlen. }
  destruct (argv w) as [| a0 [| p [| ? ?]]] eqn:Hargv; try discriminate Hlen.
  clear Hlen.
  destruct (truthy_opt (environ w !! OPENAI_API_KEY)) eqn:Hcred.
  2:{ erewrite main_no_credential by eassumption.
      eapply path_no_credential; eassumption. }
  destruct (environ w !! OPENAI_API_KEY) as [k |] eqn:Hkey; [| discriminate].
  cbn [truthy_opt] in Hcred.
  destruct (disk w !! p) as [nd |] eqn:Hnode.
  2:{ erewrite main_missing by eassumption. eapply path_missing; eassumption. }
  destruct (N.lt_ge_cases (25 * MiB) (node_size nd)) as [Hsz | Hsz].
  { erewrite main_too_large by eassumption. eapply path_too_large; eassumption. }
  destruct nd as [c | n]; cbn [node_size] in Hsz.
  2:{ erewrite main_directory by eassumption.
      eapply path_directory; eassumption. }
  destruct (whisper w k p c) as [text | message] eqn:Hsvc.
  2:{ erewrite main_remote_error by eassumption.
      eapply path_remote_error; eassumption. }
  destruct (PyStr.truthy text) eqn:Htext.
  2:{ erewrite main_empty by eassumption. eapply path_empty; eassumption. }
  destruct (refusal w (disk w !! output_name p) (output_name p))
    as [e |] eqn:Hout.
  { erewrite main_open_refused by eassumption.
    eapply path_open_refused; eassumption. }
  destruct (write_fault w (output_name p) text) as [[e reached] |] eqn:Hfault.
  - erewrite main_write_failed by eassumption.
    eapply path_write_failed; eassumption.
  - erewrite main_success by eassumption. eapply path_success; eassumption.
Qed.

(** ** The properties of the specification *)

(** The paths are told apart by their conditions: an invocation that meets
    the conditions of the successful path runs it. *)
Lemma run_success w a0 p k c text :
  argv w = [a0; p] ->
  credential w = Some k -> PyStr.truthy k = true ->
  disk w !! p = Some (File c) ->
  contents_size c <= 25 * MiB ->
  whisper w k p c = Transcript text -> PyStr.truthy text = true ->
  output_writable w (output_name p) text ->
  run w = (Return tt,
           with_fs
             (emit (boot w)
                   (progress_text p (contents_size c)
                    ++ transcript_text text ++ saved_text p)
                   (main_trace p ++ upload_trace p ++ save_trace p text))
             (<[output_name p := File (Utf8 text)]> (disk w))).
Proof. intros ? ? ? ? ? ? ? [? ?]. eapply main_success; eassumption. Qed.

Lemma rule_is_50_equals :
  rule = "==================================================" /\
  String.length rule = 50%nat.
Proof. split; reflexivity. Qed.

(** C1 (as stated) fails when the output path cannot be opened for
    writing: with a directory named [clip_transcript.txt] in the way, the
    transcript is obtained and echoed, then [open] raises, nothing is
    written and the interpreter exits with status 1. *)
Lemma blocked_output_not_saved :
  argv blocked_world = ["transcribe_mp4.py"; "clip.mp4"] /\
  credential blocked_world = Some "sk-demo" /\
  disk blocked_world !! "clip.mp4" = Some (File (Opaque 1000)) /\
  contents_size (Opaque 1000) <= 25 * MiB /\
  whisper blocked_world "sk-demo" "clip.mp4" (Opaque 1000)
    = Transcript "hello world" /\
  exit_status (fst (run blocked_world)) = 1%Z /\
  fs (snd (run blocked_world)) = disk blocked_world /\
  fs (snd (run blocked_world)) !! "clip_transcript.txt" = Some (Dir 4096).
Proof.
  repeat split; first [ reflexivity | vm_compute; discriminate ].
Qed.

(** C1 (amended): for every invocation with one argument, the credential
    set, an existing input file of at most 25 MiB, a remote call that
    returns a non-empty transcript, and an output file that is opened for
    writing, written and closed without error, the script prints the
    progress lines, then the transcript between rules of fifty ['='] under
    the [TRANSCRIPTION:] header, leaves exactly the transcript in
    [<stem>_transcript.txt], prints the confirmation naming that file, and
    exits with status 0. *)
Theorem transcript_printed_and_saved w a0 p k c text :
  argv w = [a0; p] ->
  credential w = Some k -> PyStr.truthy k = true ->
  disk w !! p = Some (File c) ->
  contents_size c <= 25 * MiB ->
  whisper w k p c = Transcript text -> PyStr.truthy text = true ->
  output_writable w (Pathlib.stem p +:+ "_transcript.txt") text ->
  exit_status (fst (run w)) = 0%Z /\
  stdout (snd (run w))
  = progress_text p (contents_size c)
    ++ [ nl +:+ rule; "TRANSCRIPTION:"; rule; text; rule ]
    ++ [ nl +:+ "Transcription saved to: " +:+ Pathlib.stem p +:+ "_transcript.txt" ] /\
  rule = "==================================================" /\
  fs (snd (run w))
  = <[Pathlib.stem p +:+ "_transcript.txt" := File (Utf8 text)]> (disk w) /\
  handles (snd (run w)) = [].
Proof.
  intros Hargv Hkey Hset Hfile Hsize Hsvc Htext Hout.
  rewrite (run_success w a0 p k c text) by assumption.
  repeat split.
Qed.

Lemma transcript_printed_and_saved_witness :
  exit_status (fst (run clip_world)) = 0%Z /\
  stdout (snd (run clip_world))
  = progress_text "clip.mp4" 1000
    ++ [ nl +:+ rule; "TRANSCRIPTION:"; rule; "hello world"; rule ]
    ++ [ nl +:+ "Transcription saved to: " +:+ "clip_transcript.txt" ] /\
  rule = "==================================================" /\
  fs (snd (run clip_world))
  = <["clip_transcript.txt" := File (Utf8 "hello world")]> (disk clip_world) /\
  handles (snd (run clip_world)) = [].
Proof.
  apply (transcript_printed_and_saved clip_world "transcribe_mp4.py" "clip.mp4"
           "sk-demo" (Opaque 1000) "hello world");
    first [ reflexivity | discriminate | split; reflexivity ].
Defined.





(** C3: when the remote call succeeds but returns the empty string, the
    script prints [Transcription failed.], exits with status 1, and leaves
    the disk as it found it: the upload was made, no file was opened for
    writing. *)
Theorem empty_transcript_fails w a0 p k c :
  argv w = [a0; p] ->
  credential w = Some k -> PyStr.truthy k = true ->
  disk w !! p = Some (File c) ->
  contents_size c <= 25 * MiB ->
  whisper w k p c = Transcript "" ->
  fst (run w) = SysExit 1 /\
  exit_status (fst (run w)) <> 0%Z /\
  stdout (snd (run w))
  = progress_text p (contents_size c) ++ [ "Transcription failed." ] /\
  net_accesses (trace (snd (run w))) = [Upload p] /\
  writes (trace (snd (run w))) = [] /\
  fs (snd (run w)) = disk w /\
  fs (snd (run w)) !! output_name p = disk w !! output_name p.
Proof.
  intros Hargv Hkey Hset Hfile Hsize Hsvc.
  rewrite (main_empty w a0 p Hargv k Hkey Hset c Hfile Hsize "" Hsvc eq_refl).
  repeat split. discriminate.
Qed.

Lemma empty_transcript_fails_witness :
  fst (run silent_world) = SysExit 1 /\
  exit_status (fst (run silent_world)) <> 0%Z /\
  stdout (snd (run silent_world))
  = progress_text "silence.mp4" 0 ++ [ "Transcription failed." ] /\
  net_accesses (trace (snd (run silent_world))) = [Upload "silence.mp4"] /\
  writes (trace (snd (run silent_world))) = [] /\
  fs (snd (run silent_world)) = disk silent_world /\
  fs (snd (run silent_world)) !! output_name "silence.mp4"
  = disk silent_world !! output_name "silence.mp4".
Proof.
  apply (empty_transcript_fails silent_world "transcribe_mp4.py" "silence.mp4"
           "sk-demo" (Opaque 0));
    first [ reflexivity | discriminate ].
Defined.

(** C5: when the remote call raises, the script prints the message of the
    exception after [Error during transcription: ], then
    [Transcription failed.], and exits with status 1; the call was made
    once, nothing was opened for writing and the disk is unchanged. *)
Theorem remote_error_reported w a0 p k c message :
  argv w = [a0; p] ->
  credential w = Some k -> PyStr.truthy k = true ->
  disk w !! p = Some (File c) ->
  contents_size c <= 25 * MiB ->
  whisper w k p c = Failure message ->
  fst (run w) = SysExit 1 /\
  exit_status (fst (run w)) <> 0%Z /\
  stdout (snd (run w))
  = progress_text p (contents_size c)
    ++ [ "Error during transcription: " +:+ message; "Transcription failed." ] /\
  net_accesses (trace (snd (run w))) = [Upload p] /\
  writes (trace (snd (run w))) = [] /\
  fs (snd (run w)) = disk w.
Proof.
  intros Hargv Hkey Hset Hfile Hsize Hsvc.
  rewrite (main_remote_error w a0 p Hargv k Hkey Hset c Hfile Hsize message Hsvc).
  repeat split. discriminate.
Qed.

Lemma remote_error_reported_witness :
  fst (run notes_world) = SysExit 1 /\
  exit_status (fst (run notes_world)) <> 0%Z /\
  stdout (snd (run notes_world))
  = progress_text "notes.txt" 3
    ++ [ "Error during transcription: Invalid file format.";
         "Transcription failed." ] /\
  net_accesses (trace (snd (run notes_world))) = [Upload "notes.txt"] /\
  writes (trace (snd (run notes_world))) = [] /\
  fs (snd (run notes_world)) = disk notes_world.
Proof.
  apply (remote_error_reported notes_world "transcribe_mp4.py" "notes.txt"
           "sk-demo" (Utf8 "abc") "Invalid file format.");
    first [ reflexivity | discriminate ].
Defined.

Lemma positional_count w :
  length (positional w) <> 1%nat <-> length (argv w) <> 2%nat.
Proof.
  unfold positional. destruct (argv w) as [| a0 [| p [| q l]]]; cbn; lia.
Qed.

(** C6: when the credential is unset or empty the script prints a message
    (the credential message when it has one argument, the usage text
    otherwise), exits with status 1, and has made no filesystem or network
    access. *)
Theorem missing_credential_exits_first w :
  truthy_opt (credential w) = false ->
  fst (run w) = SysExit 1 /\
  exit_status (fst (run w)) <> 0%Z /\
  stdout (snd (run w))
  = (if Nat.eqb (length (argv w)) 2 then credential_text else usage_text) /\
  fs_accesses (trace (snd (run w))) = [] /\
  net_accesses (trace (snd (run w))) = [] /\
  fs (snd (run w)) = disk w.
Proof.
  intros Hcred.
  destruct (Nat.eqb_spec (length (argv w)) 2) as [Hlen | Hlen].
  - destruct (argv w) as [| a0 [| p [| ? ?]]] eqn:Hargv; try discriminate Hlen.
    rewrite (main_no_credential w a0 p Hargv Hcred).
    repeat split. discriminate.
  - rewrite (main_usage w Hlen). repeat split. discriminate.
Qed.

Lemma missing_credential_exits_first_witness :
  fst (run keyless_world) = SysExit 1 /\
  exit_status (fst (run keyless_world)) <> 0%Z /\
  stdout (snd (run keyless_world)) = credential_text /\
  fs_accesses (trace (snd (run keyless_world))) = [] /\
  net_accesses (trace (snd (run keyless_world))) = [] /\
  fs (snd (run keyless_world)) = disk keyless_world.
Proof.
  apply (missing_credential_exits_first keyless_world). reflexivity.
Defined.

(** C7: when the number of positional arguments is not one, the script
    prints the usage text and exits with status 1 without having read the
    credential or touched the filesystem or the network: its trace is
    empty and the disk unchanged, whatever the environment and the disk
    hold. *)
Theorem usage_error_first w :
  length (positional w) <> 1%nat ->
  fst (run w) = SysExit 1 /\
  exit_status (fst (run w)) <> 0%Z /\
  stdout (snd (run w)) = usage_text /\
  trace (snd (run w)) = [] /\
  fs (snd (run w)) = disk w.
Proof.
  intros Hlen. apply positional_count in Hlen.
  rewrite (main_usage w Hlen). repeat split. discriminate.
Qed.

Lemma usage_error_first_witness :
  fst (run bare_world) = SysExit 1 /\
  exit_status (fst (run bare_world)) <> 0%Z /\
  stdout (snd (run bare_world)) = usage_text /\
  trace (snd (run bare_world)) = [] /\
  fs (snd (run bare_world)) = disk bare_world.
Proof.
  apply (usage_error_first bare_world). cbn. lia.
Defined.

(** C8: with one argument and the credential set, a path that does not
    exist makes the script print [Error: File '<path>' not found.], then
    [Transcription failed.], and exit with status 1 without any network
    access.  The existence check is made by [transcribe_mp4], after the
    credential has been read. *)
Theorem missing_file_reported w a0 p k :
  argv w = [a0; p] ->
  credential w = Some k -> PyStr.truthy k = true ->
  disk w !! p = None ->
  fst (run w) = SysExit 1 /\
  exit_status (fst (run w)) <> 0%Z /\
  stdout (snd (run w))
  = [ "Error: File '" +:+ p +:+ "' not found."; "Transcription failed." ] /\
  trace (snd (run w))
  = [ Getenv OPENAI_API_KEY; Getenv OPENAI_API_KEY; ClientInit; Exists p ] /\
  net_accesses (trace (snd (run w))) = [] /\
  (forall s, fs s !! p = None ->
     transcribe_mp4 w p s
     = (Return None,
        emit s [ "Error: File '" +:+ p +:+ "' not found." ]
               [ Getenv OPENAI_API_KEY; ClientInit; Exists p ])).
Proof.
  intros Hargv Hkey Hset Hfile.
  rewrite (main_missing w a0 p Hargv k Hkey Hset Hfile).
  repeat split; try discriminate.
  intros s Hs. exact (transcribe_missing w p s k Hkey Hs).
Qed.

Lemma missing_file_reported_witness :
  fst (run absent_world) = SysExit 1 /\
  stdout (snd (run absent_world))
  = [ "Error: File 'gone.mp4' not found."; "Transcription failed." ] /\
  net_accesses (trace (snd (run absent_world))) = [].
Proof.
  destruct (missing_file_reported absent_world "transcribe_mp4.py" "gone.mp4"
              "sk-demo" eq_refl eq_refl eq_refl eq_refl)
    as (Hexit & _ & Hout & _ & Hnet & _).
  exact (conj Hexit (conj Hout Hnet)).
Defined.

(** Only the successful path ends with status 0. *)
Lemma exit_zero_inv w :
  exit_status (fst (run w)) = 0%Z ->
  exists a0 p k c text,
    argv w = [a0; p] /\
    credential w = Some k /\ PyStr.truthy k = true /\
    disk w !! p = Some (File c) /\
    contents_size c <= 25 * MiB /\
    whisper w k p c = Transcript text /\ PyStr.truthy text = true /\
    output_writable w (output_name p) text.
Proof.
  intros Hexit. pose proof (run_path w) as Hpath.
  remember (run w) as r eqn:Hr. clear Hr.
  destruct Hpath; cbn in Hexit; try discriminate Hexit.
  exists a0, p, k, c, text. repeat split; assumption.
Qed.

(** A file can be opened for writing where the system does not refuse the
    path. *)
Lemma refusal_of_file w c path :
  refusal w (Some (File c)) path = open_fault w path.
Proof. reflexivity. Qed.

Lemma refusal_none w nd path :
  refusal w nd path = None -> open_fault w path = None.
Proof. destruct nd as [[c | n] |]; cbn; [trivial | discriminate | trivial]. Qed.

Lemma exit_status_binary w :
  exit_status (fst (run w)) = 0%Z \/ exit_status (fst (run w)) = 1%Z.
Proof.
  pose proof (run_path w) as Hpath.
  remember (run w) as r eqn:Hr. clear Hr.
  destruct Hpath; cbn; auto.
Qed.

(** C4: the exit status is 0 only when a non-empty transcript was obtained
    and the output file holds it; a wrong argument count, a missing
    credential, a missing file, a file over the limit and a failed remote
    call each end in status 1. *)
Theorem exit_status_meaning w :
  (exit_status (fst (run w)) = 0%Z -> transcribed_and_written w (snd (run w))) /\
  (failure w -> exit_status (fst (run w)) = 1%Z).
Proof.
  split.
  - intros Hexit.
    destruct (exit_zero_inv w Hexit)
      as (a0 & p & k & c & text & Hargv & Hkey & Hset & Hfile & Hsize & Hsvc
          & Htext & Hout).
    rewrite (run_success w a0 p k c text) by assumption.
    exists a0, p, k, c, text. repeat split; try assumption.
    cbn [snd fs with_fs]. apply lookup_insert_eq.
  - intros Hfail.
    destruct (exit_status_binary w) as [Hzero | Hone]; [| exact Hone].
    exfalso.
    destruct (exit_zero_inv w Hzero)
      as (a0 & p & k & c & text & Hargv & Hkey & Hset & Hfile & Hsize & Hsvc
          & Htext & Hout).
    destruct Hfail as [Hlen | Hcred | b0 q Hargv' Hnone | b0 q nd Hargv' Hnd Hbig
                       | b0 q k' c' message Hargv' Hkey' Hfile' Hsvc'].
    + unfold positional in Hlen. rewrite Hargv in Hlen. apply Hlen. reflexivity.
    + rewrite Hkey in Hcred. cbn in Hcred. congruence.
    + rewrite Hargv in Hargv'. injection Hargv' as <- <-. congruence.
    + rewrite Hargv in Hargv'. injection Hargv' as <- <-.
      rewrite Hfile in Hnd. injection Hnd as <-. cbn [node_size] in Hbig. lia.
    + rewrite Hargv in Hargv'. injection Hargv' as <- <-.
      rewrite Hkey in Hkey'. injection Hkey' as <-.
      rewrite Hfile in Hfile'. injection Hfile' as <-. congruence.
Qed.

(** C9: after a run that ended with status 0, the same invocation on the
    disk that run left finds the output file already holding the
    transcript, opens it for writing (which truncates it), writes the
    transcript once and ends with status 0 again; the disk it leaves is the
    disk it found, so the output file holds the transcript once, not
    twice. *)
Theorem rerun_overwrites w :
  exit_status (fst (run w)) = 0%Z ->
  exists p text,
    nth_error (argv w) 1 = Some p /\
    disk (rerun w) !! output_name p = Some (File (Utf8 text)) /\
    exit_status (fst (run (rerun w))) = 0%Z /\
    writes (trace (snd (run (rerun w))))
    = [ OpenWrite (output_name p); WriteText (output_name p) text ] /\
    fs (snd (run (rerun w))) !! output_name p = Some (File (Utf8 text)) /\
    fs (snd (run (rerun w))) = disk (rerun w) /\
    run (rerun w) = run w.
Proof.
  intros Hexit.
  destruct (exit_zero_inv w Hexit)
    as (a0 & p & k & c & text & Hargv & Hkey & Hset & Hfile & Hsize & Hsvc
        & Htext & Hout).
  pose proof (run_success w a0 p k c text Hargv Hkey Hset Hfile Hsize Hsvc
                Htext Hout) as Hrun.
  assert (Hdisk : disk (rerun w)
                  = <[output_name p := File (Utf8 text)]> (disk w)).
  { unfold rerun. cbn [disk]. rewrite Hrun. reflexivity. }
  assert (Hagain : run (rerun w) = run w).
  { rewrite (run_success (rerun w) a0 p k c text); try assumption.
    - rewrite Hrun, Hdisk, insert_insert_eq. reflexivity.
    - rewrite Hdisk. rewrite lookup_insert_ne; [exact Hfile |].
      apply output_name_fresh.
    - destruct Hout as [Hopen Hwrite]. split; [| exact Hwrite].
      rewrite Hdisk, lookup_insert_eq, refusal_of_file.
      exact (refusal_none w _ _ Hopen). }
  exists p, text. rewrite Hagain, Hdisk, Hrun. cbn [fst snd fs with_fs].
  repeat split.
  - rewrite Hargv. reflexivity.
  - apply lookup_insert_eq.
  - apply lookup_insert_eq.
Qed.

Lemma rerun_overwrites_witness :
  exists p text,
    nth_error (argv clip_world) 1 = Some p /\
    disk (rerun clip_world) !! output_name p = Some (File (Utf8 text)) /\
    exit_status (fst (run (rerun clip_world))) = 0%Z /\
    writes (trace (snd (run (rerun clip_world))))
    = [ OpenWrite (output_name p); WriteText (output_name p) text ] /\
    fs (snd (run (rerun clip_world))) !! output_name p = Some (File (Utf8 text)) /\
    fs (snd (run (rerun clip_world))) = disk (rerun clip_world) /\
    run (rerun clip_world) = run clip_world.
Proof.
  apply (rerun_overwrites clip_world). reflexivity.
Defined.

(** The [with] block gives back the file object however its body ends. *)
Lemma with_open_rb_releases {A} path (body : string -> M A) s :
  (forall h s', handles (snd (body h s')) = handles s') ->
  handles (snd (with_open_rb path body s)) = handles s.
Proof.
  intros Hbody.
  cbv beta iota zeta delta
    [with_open_rb mbind M_bind bind mret M_ret ret raise stat log
     set_handles finally close].
  destruct (fs s !! path) as [[c | n] |]; cbn [fs stdout trace handles snd];
    try reflexivity.
  match goal with |- context [body path ?s1] =>
    specialize (Hbody path s1); destruct (body path s1) as [r s']
  end.
  cbn [snd handles] in *. rewrite Hbody. apply remove_first_head.
Qed.

(** Whatever it is given, [transcribe_mp4] only prints and logs: it leaves
    the disk and the open file objects as they were, and a file object it
    opened is used for one upload and closed right after. *)
Lemma transcribe_shape w p s :
  exists o out tr,
    transcribe_mp4 w p s = (o, emit s out tr) /\ scoped_reads tr = true.
Proof.
  destruct (environ w !! OPENAI_API_KEY) as [k |] eqn:Hkey.
  2:{ destruct (transcribe_no_key w p s Hkey) as [e He].
      rewrite He. eauto. }
  destruct (fs s !! p) as [nd |] eqn:Hnode.
  2:{ erewrite transcribe_missing by eassumption. eauto. }
  destruct (N.lt_ge_cases (25 * MiB) (node_size nd)) as [Hsz | Hsz].
  { erewrite transcribe_too_large by eassumption. eauto. }
  destruct nd as [c | n]; cbn [node_size] in Hsz.
  2:{ erewrite transcribe_directory by eassumption. eauto. }
  destruct (whisper w k p c) as [text | message] eqn:Hsvc.
  - erewrite transcribe_ok by eassumption. do 3 eexists. split; [reflexivity |].
    cbn. rewrite String.eqb_refl. reflexivity.
  - erewrite transcribe_remote_error by eassumption.
    do 3 eexists. split; [reflexivity |].
    cbn. rewrite String.eqb_refl. reflexivity.
Qed.

(** C10: on every path through [transcribe_mp4] the input file object,
    once opened, is handed to the one upload and closed immediately after
    it, whether the upload returned or raised; no file object is open when
    the function returns, nor when the script ends.  The [with] block
    closes the file object however its body ends. *)
Theorem input_handle_released :
  (forall w p s,
     handles (snd (transcribe_mp4 w p s)) = handles s /\
     exists tr,
       trace (snd (transcribe_mp4 w p s)) = trace s ++ tr /\
       scoped_reads tr = true) /\
  (forall w,
     handles (snd (run w)) = [] /\
     scoped_reads (trace (snd (run w))) = true) /\
  (forall A path (body : string -> M A) s,
     (forall h s', handles (snd (body h s')) = handles s') ->
     handles (snd (with_open_rb path body s)) = handles s).
Proof.
  split; [| split].
  - intros w p s.
    destruct (transcribe_shape w p s) as (o & out & tr & Heq & Hscoped).
    rewrite Heq. split; [reflexivity |]. exists tr. split; [reflexivity | exact Hscoped].
  - intros w. pose proof (run_path w) as Hpath.
    remember (run w) as r eqn:Hr. clear Hr.
    destruct Hpath; (split; [reflexivity |]); cbn;
      rewrite ?String.eqb_refl; reflexivity.
  - intros A path body s. apply with_open_rb_releases.
Qed.

Lemma exit_status_meaning_witness :
  transcribed_and_written clip_world (snd (run clip_world)) /\
  exit_status (fst (run oversize_world)) = 1%Z.
Proof.
  split.
  - apply (proj1 (exit_status_meaning clip_world)). reflexivity.
  - apply (proj2 (exit_status_meaning oversize_world)).
    apply (size_limit_exceeded oversize_world "transcribe_mp4.py" "clip.mp4"
             (File (Opaque (25 * 1048576 + 1))));
      reflexivity.
Defined.

(** ** Further properties of the script *)

(** X2: a run that does not end with status 0 leaves the disk exactly as
    it found it, unless what failed is the write of the output file itself
    (after it was opened, and so truncated): then the output file holds
    what reached it, possibly nothing, and nothing else has changed. *)
Theorem failed_run_disk w :
  exit_status (fst (run w)) <> 0%Z ->
  (fs (snd (run w)) = disk w /\ writes (trace (snd (run w))) = []) \/
  exists text e reached,
    write_fault w (output_name (input_path w)) text = Some (e, reached) /\
    fst (run w) = Raise e /\
    fs (snd (run w))
    = <[output_name (input_path w) := File (Utf8 reached)]> (disk w).
Proof.
  intros Hexit. pose proof (run_path w) as Hpath.
  remember (run w) as r eqn:Hr. clear Hr.
  destruct Hpath; try (left; split; reflexivity).
  - right. exists text, e, reached. unfold input_path.
    match goal with Hargv : argv w = _ |- _ => rewrite Hargv end.
    cbn [nth fst snd fs with_fs]. repeat split. assumption.
  - exfalso. apply Hexit. reflexivity.
Qed.

Lemma failed_run_disk_witness :
  (fs (snd (run full_disk_world)) = disk full_disk_world /\
   writes (trace (snd (run full_disk_world))) = []) \/
  exists text e reached,
    write_fault full_disk_world (output_name (input_path full_disk_world)) text
    = Some (e, reached) /\
    fst (run full_disk_world) = Raise e /\
    fs (snd (run full_disk_world))
    = <[output_name (input_path full_disk_world) := File (Utf8 reached)]>
        (disk full_disk_world).
Proof.
  apply (failed_run_disk full_disk_world). vm_compute. discriminate.
Defined.

(** X3: a run calls the transcription endpoint at most once, and only for
    the path named on the command line, with a non-empty credential, after
    that path was found to exist, not to be a directory, and to have a
    reported size of at most 25 MiB. *)
Theorem upload_guarded w :
  net_accesses (trace (snd (run w))) = [] \/
  exists a0 p k c,
    argv w = [a0; p] /\
    credential w = Some k /\ PyStr.truthy k = true /\
    disk w !! p = Some (File c) /\
    contents_size c <= 25 * MiB /\
    net_accesses (trace (snd (run w))) = [Upload p].
Proof.
  pose proof (run_path w) as Hpath.
  remember (run w) as r eqn:Hr. clear Hr.
  destruct Hpath; try (left; reflexivity);
    right; exists a0, p, k, c; repeat split; assumption.
Qed.

(** X5: a directory given as input passes the existence check (and, when
    its reported size is at most 25 MiB, the size check); opening it fails
    inside the [try], so the script prints the text of the
    [IsADirectoryError] ([[Errno 21] Is a directory: ] and the file name as
    the interpreter prints it), then [Transcription failed.], exits with
    status 1 and uploads nothing. *)
Theorem directory_input_reported w a0 p k n :
  argv w = [a0; p] ->
  credential w = Some k -> PyStr.truthy k = true ->
  disk w !! p = Some (Dir n) ->
  n <= 25 * MiB ->
  fst (run w) = SysExit 1 /\
  stdout (snd (run w))
  = progress_text p n
    ++ [ "Error during transcription: [Errno 21] Is a directory: " +:+ repr w p;
         "Transcription failed." ] /\
  net_accesses (trace (snd (run w))) = [] /\
  fs (snd (run w)) = disk w.
Proof.
  intros Hargv Hkey Hset Hdir Hsize.
  rewrite (main_directory w a0 p Hargv k Hkey Hset n Hdir Hsize).
  repeat split.
Qed.

Lemma directory_input_reported_witness :
  fst (run folder_world) = SysExit 1 /\
  stdout (snd (run folder_world))
  = progress_text "recordings" 4096
    ++ [ "Error during transcription: [Errno 21] Is a directory: 'recordings'";
         "Transcription failed." ] /\
  net_accesses (trace (snd (run folder_world))) = [] /\
  fs (snd (run folder_world)) = disk folder_world.
Proof.
  apply (directory_input_reported folder_world "transcribe_mp4.py" "recordings"
           "sk-demo" 4096);
    first [ reflexivity | vm_compute; discriminate ].
Defined.

(** X6: a file of more than 25 MiB but at most 25 MiB + 52428 bytes is
    turned away with a message that prints its size as [25.0MB]: the
    comparison is made on the exact quotient, the message shows it rounded
    to one decimal place. *)
Theorem rejected_at_25_0 w p s k nd :
  credential w = Some k ->
  fs s !! p = Some nd ->
  25 * 1048576 < node_size nd ->
  node_size nd <= 25 * 1048576 + 52428 ->
  transcribe_mp4 w p s
  = (Return None,
     emit s [ "Error: File size (25.0MB) exceeds OpenAI's 25MB limit.";
              "Consider splitting the file or using a smaller file." ]
            (checks_trace p)).
Proof.
  intros Hkey Hfs Hlo Hhi.
  rewrite (transcribe_too_large w p s k Hkey nd Hfs Hlo).
  f_equal. f_equal. unfold too_large_text. f_equal. f_equal.
  assert (Hsmall : node_size nd < 2 ^ 53).
  { change (2 ^ 53) with 9007199254740992. lia. }
  unfold size_mb, Float.format_1f.
  assert (Ht : Float.tenths (Float.truediv (node_size nd) MiB) = 250).
  { unfold Float.truediv. rewrite log2_MiB.
    unfold Float.truediv_pow2, Float.precision.
    rewrite (proj2 (N.ltb_lt _ _) Hsmall).
    change (- Z.of_N 20)%Z with (Z.neg 20).
    unfold Float.tenths; cbn [Float.expo Float.mant].
    change (2 ^ N.pos 20) with 1048576. cbv zeta.
    assert (Hq : 10 * node_size nd / 1048576 = 250).
    { symmetry. apply N.div_unique with (10 * node_size nd - 262144000); lia. }
    assert (Hr : (10 * node_size nd) mod 1048576
                 = 10 * node_size nd - 262144000).
    { symmetry. apply N.mod_unique with 250; lia. }
    rewrite Hq, Hr.
    rewrite (proj2 (N.ltb_ge _ _)) by lia.
    rewrite (proj2 (N.eqb_neq _ _)) by lia.
    reflexivity. }
  rewrite Ht. reflexivity.
Qed.

Lemma rejected_at_25_0_witness :
  transcribe_mp4 oversize_world "clip.mp4" (boot oversize_world)
  = (Return None,
     emit (boot oversize_world)
          [ "Error: File size (25.0MB) exceeds OpenAI's 25MB limit.";
            "Consider splitting the file or using a smaller file." ]
          (checks_trace "clip.mp4")).
Proof.
  apply (rejected_at_25_0 oversize_world "clip.mp4" (boot oversize_world)
           "sk-demo" (File (Opaque (25 * 1048576 + 1))));
    first [ reflexivity | vm_compute; discriminate ].
Defined.

Lemma split_nonempty sep s : PyStr.split sep s <> [].
Proof.
  destruct s as [| a s]; cbn [PyStr.split]; [discriminate |].
  destruct (Ascii.eqb a sep); [discriminate |].
  destruct (PyStr.split sep s); discriminate.
Qed.

Lemma split_app sep (a b : string) :
  PyStr.split sep (a +:+ String sep b) = PyStr.split sep a ++ PyStr.split sep b.
Proof.
  induction a as [| x a IH].
  - change ("" +:+ String sep b) with (String sep b).
    cbn [PyStr.split]. rewrite Ascii.eqb_refl. reflexivity.
  - rewrite app_cons. cbn [PyStr.split]. rewrite IH.
    destruct (Ascii.eqb x sep); [reflexivity |].
    pose proof (split_nonempty sep a) as Hne.
    destruct (PyStr.split sep a) as [| h t]; [contradiction | reflexivity].
Qed.

Lemma last_snoc (l : list string) (x d : string) : List.last (l ++ [x]) d = x.
Proof.
  induction l as [| y l IH]; [reflexivity |].
  cbn [app List.last]. destruct (l ++ [x]) eqn:Hl; [| exact IH].
  destruct l; discriminate Hl.
Qed.

(** X7: the output name is built from the final component of the input
    path only: it contains no ['/'], so the transcript lands in the current
    directory, and inputs with the same file name in different directories
    share one output file. *)
Theorem output_name_ignores_directory dir file :
  PyStr.contains_char "/" file = false ->
  Pathlib.keeps file = true ->
  output_name (dir +:+ "/" +:+ file) = output_name file /\
  PyStr.contains_char "/" (output_name (dir +:+ "/" +:+ file)) = false.
Proof.
  intros Hslash Hkeep.
  assert (Hname : forall d, Pathlib.name (d +:+ "/" +:+ file) = file).
  { intros d. unfold Pathlib.name, Pathlib.parts.
    change (d +:+ "/" +:+ file) with (d +:+ String "/" file).
    rewrite split_app, List.filter_app.
    rewrite (split_no_sep "/" file Hslash). cbn [List.filter].
    rewrite Hkeep. apply last_snoc. }
  assert (Hself : Pathlib.name file = file).
  { unfold Pathlib.name, Pathlib.parts.
    rewrite (split_no_sep "/" file Hslash). cbn [List.filter].
    rewrite Hkeep. reflexivity. }
  split.
  - unfold output_name, Pathlib.stem. rewrite Hname, Hself. reflexivity.
  - unfold output_name. rewrite contains_char_app, stem_no_slash. reflexivity.
Qed.

Lemma output_name_ignores_directory_witness :
  output_name ("videos/2024" +:+ "/" +:+ "clip.mp4") = output_name "clip.mp4" /\
  PyStr.contains_char "/" (output_name ("videos/2024" +:+ "/" +:+ "clip.mp4"))
  = false.
Proof.
  apply (output_name_ignores_directory "videos/2024" "clip.mp4"); reflexivity.
Defined.

(** X9: [transcribe_mp4] never fails silently: whenever it returns [None]
    it has printed a line that starts with [Error], and it has left the
    disk as it was. *)
Theorem transcribe_none_reported w p s :
  fst (transcribe_mp4 w p s) = Return None ->
  exists out,
    stdout (snd (transcribe_mp4 w p s)) = stdout s ++ out /\
    reports_error out = true /\
    fs (snd (transcribe_mp4 w p s)) = fs s.
Proof.
  destruct (environ w !! OPENAI_API_KEY) as [k |] eqn:Hkey.
  2:{ destruct (transcribe_no_key w p s Hkey) as [e He].
      rewrite He. discriminate. }
  destruct (fs s !! p) as [nd |] eqn:Hnode.
  2:{ erewrite transcribe_missing by eassumption.
      intros _. eexists. repeat split. }
  destruct (N.lt_ge_cases (25 * MiB) (node_size nd)) as [Hsz | Hsz].
  { erewrite transcribe_too_large by eassumption.
    intros _. eexists. repeat split. }
  destruct nd as [c | n]; cbn [node_size] in Hsz.
  2:{ erewrite transcribe_directory by eassumption.
      intros _. eexists. repeat split. }
  destruct (whisper w k p c) as [text | message] eqn:Hsvc.
  - erewrite transcribe_ok by eassumption. discriminate.
  - erewrite transcribe_remote_error by eassumption.
    intros _. eexists. repeat split.
Qed.

Lemma transcribe_none_reported_witness :
  exists out,
    stdout (snd (transcribe_mp4 absent_world "gone.mp4" (boot absent_world)))
    = stdout (boot absent_world) ++ out /\
    reports_error out = true /\
    fs (snd (transcribe_mp4 absent_world "gone.mp4" (boot absent_world)))
    = fs (boot absent_world).
Proof.
  apply (transcribe_none_reported absent_world "gone.mp4" (boot absent_world)).
  reflexivity.
Defined.
